(** * SuperREST: a shallow embedding of [index.js]

    The module under study wraps the SuperTest request library: a
    [SuperRest] instance holds three defaults, [test] builds one request
    chain, [expect] is the assertion run on the response, and the CRUD
    aliases forward to [test].

    JavaScript values are an inductive type, option bags are finite maps
    from property names to values, exceptions are an [Outcome], and the
    calls made on the SuperTest collaborator are logged in a trace that
    is threaded through a small state-and-error monad. *)

From Stdlib Require Import ZArith String Ascii DecimalString Bool.
From stdpp Require Import base option gmap strings list fin_maps.

Local Open Scope Z_scope.
Local Open Scope string_scope.

(** ** JavaScript values *)

(** A regular expression object: the two parts that its string
    conversion prints, and the verdict of [String.prototype.match] on a
    subject string (a match was found or not). *)
Record RegExp := mkRegExp {
  source : string;
  flags : string;
  exec : string -> bool
}.

(** Numbers are the integer-valued ones (status codes); a plain object is
    the list of its own properties. *)
#[warnings="-register-all"] Inductive JsValue :=
| JUndefined
| JNull
| JBool (b : bool)
| JNum (n : Z)
| JStr (s : string)
| JRegExp (r : RegExp)
| JObject (fields : list (string * JsValue)).

(** The double-quote character, as a one-character string. *)
Definition dquote : string := String (ascii_of_nat 34) EmptyString.

(** [ToBoolean]: what [if (v)], [!v] and [v || w] test. *)
Definition to_boolean (v : JsValue) : bool :=
  match v with
  | JUndefined | JNull => false
  | JBool b => b
  | JNum n => negb (n =? 0)%Z
  | JStr s => negb (String.eqb s EmptyString)
  | JRegExp _ | JObject _ => true
  end.

(** [ToString], as a template literal applies it to [${v}]. *)
Definition to_string (v : JsValue) : string :=
  match v with
  | JUndefined => "undefined"
  | JNull => "null"
  | JBool true => "true"
  | JBool false => "false"
  | JNum n => NilZero.string_of_int (Z.to_int n)
  | JStr s => s
  | JRegExp r => "/" +:+ source r +:+ "/" +:+ flags r
  | JObject _ => "[object Object]"
  end.

(** [a || b]. *)
Definition js_or (a b : JsValue) : JsValue :=
  if to_boolean a then a else b.

(** [a === b].  Every comparison in [index.js] has a primitive on one
    side, so reference identity of objects never decides an outcome;
    two objects compare unequal here. *)
Definition strict_equals (a b : JsValue) : bool :=
  match a, b with
  | JUndefined, JUndefined => true
  | JNull, JNull => true
  | JBool x, JBool y => Bool.eqb x y
  | JNum x, JNum y => (x =? y)%Z
  | JStr x, JStr y => String.eqb x y
  | _, _ => false
  end.

(** [_.isString] and [_.isRegExp]. *)
Definition isString (v : JsValue) : bool :=
  match v with JStr _ => true | _ => false end.

Definition isRegExp (v : JsValue) : bool :=
  match v with JRegExp _ => true | _ => false end.

(** [String.prototype.toLowerCase] on the ASCII range, where HTTP method
    tokens live. *)
Definition lower_ascii (c : ascii) : ascii :=
  let n := N_of_ascii c in
  if ((65 <=? n) && (n <=? 90))%N then ascii_of_N (n + 32) else c.

Fixpoint toLowerCase (s : string) : string :=
  match s with
  | EmptyString => EmptyString
  | String c r => String (lower_ascii c) (toLowerCase r)
  end.

(** ** Option bags *)

(** An options object is a finite map from property names to values;
    reading a property that is not there gives [undefined]. *)
Abbreviation Obj := (gmap string JsValue).

Definition prop (o : Obj) (k : string) : JsValue :=
  default JUndefined (o !! k).

(** [_.defaults(dest, ...sources)]: sources are visited left to right, a
    [null] or [undefined] source is skipped, and a property of a source
    is copied when the destination still reads [undefined] there. *)
Definition defaults_step (dest : Obj) (src : option Obj) : Obj :=
  match src with
  | None => dest
  | Some s =>
      map_fold (fun k v d =>
                  if strict_equals (prop d k) JUndefined then <[k := v]> d else d)
               dest s
  end.

Definition defaults (dest : Obj) (sources : list (option Obj)) : Obj :=
  foldl defaults_step dest sources.

(** ** The SuperTest collaborator

    Modelled from the spec: SuperTest is a dependency of the module and
    its code is not among the sources.  Section 6 of the specification
    gives its interface: from an application handler, a verb and a path
    it constructs a request, accepts a body payload and a deferred
    assertion callback, and yields a response with a numeric status code
    and a case-insensitive header lookup. *)

(** The application under test is an opaque reference. *)
Inductive Application := AppRef (id : nat).

(** A response: the numeric status code and the header table, keyed by
    lower-cased field names.  [get] is the case-insensitive lookup, the
    read of [header[field.toLowerCase()]]: a header that is not in the
    table reads [undefined], the falsy value that line 124 of [index.js]
    reports as a missing header. *)
Record Response := mkResponse {
  status : Z;
  header : gmap string string
}.

Definition get (res : Response) (field : string) : JsValue :=
  match header res !! toLowerCase field with
  | Some v => JStr v
  | None => JUndefined
  end.

(** [subject.match(pattern)] as a condition: is the result non-null.  It
    is only evaluated where the pattern is a regular expression and the
    subject is a header value. *)
Definition str_match (subject pattern : JsValue) : bool :=
  match subject, pattern with
  | JStr s, JRegExp r => exec r s
  | _, _ => false
  end.

(** Exceptions and the result of a call that may throw. *)
Inductive JsError :=
| Error (message : string)
| TypeError.

Inductive Outcome (A : Type) :=
| Return (a : A)
| Throw (e : JsError).

Arguments Return {A} a.
Arguments Throw {A} e.

(** A SuperTest chain: the verb and URL it was opened with, the body
    attached by [send], and the assertion callbacks in registration
    order. *)
Record Test := mkTest {
  target : Application;
  method : string;
  url : string;
  data : option JsValue;
  asserts : list (Response -> Outcome unit)
}.

(** The calls made on the collaborator, in program order. *)
Inductive Call :=
| CallSupertest (a : Application)
| CallVerb (verb path : string)
| CallSend (body : JsValue)
| CallExpect.

(** Computations that log collaborator calls and may throw. *)
Definition M (A : Type) : Type := list Call -> Outcome A * list Call.

Definition ret {A} (a : A) : M A := fun tr => (Return a, tr).

Definition bind {A B} (m : M A) (k : A -> M B) : M B :=
  fun tr =>
    match m tr with
    | (Return a, tr') => k a tr'
    | (Throw e, tr') => (Throw e, tr')
    end.

Definition throw {A} (e : JsError) : M A := fun tr => (Throw e, tr).

Definition log (c : Call) : M unit := fun tr => (Return tt, (tr ++ [c])%list).

Definition lift {A} (o : Outcome A) : M A := fun tr => (o, tr).

#[global] Instance M_ret : MRet M := @ret.
#[global] Instance M_bind : MBind M := fun A B k m => bind m k.

(** [supertest(app)]: the agent, on which each verb is a function. *)
Definition supertest (a : Application) : M Application :=
  log (CallSupertest a) ;; ret a.

(** [agent[verb](path)] opens the chain.  Every function of the agent
    is taken to open one, as the verbs that SuperTest installs do.  The
    one all-lower-case function name that every object inherits,
    [constructor], passes the check of line 71 as well and returns a
    String object, on which line 88 (or 85) throws a [TypeError]: a call
    with that method is outside this model. *)
Definition agent_verb (agent : Application) (verb path : string) : M Test :=
  log (CallVerb verb path) ;; ret (mkTest agent verb path None []).

(** [chain.send(body)] and [chain.expect(fn)]. *)
Definition send (t : Test) (body : JsValue) : M Test :=
  log (CallSend body) ;;
  ret (mkTest (target t) (method t) (url t) (Some body) (asserts t)).

Definition chain_expect (t : Test) (fn : Response -> Outcome unit) : M Test :=
  log CallExpect ;;
  ret (mkTest (target t) (method t) (url t) (data t) (asserts t ++ [fn])%list).

(** Awaiting the chain against the response the application produced:
    the registered assertions run in order; the first one that throws
    rejects the chain, otherwise it resolves with the response. *)
Fixpoint run_asserts (fns : list (Response -> Outcome unit)) (res : Response)
  : Outcome Response :=
  match fns with
  | [] => Return res
  | fn :: rest =>
      match fn res with
      | Return _ => run_asserts rest res
      | Throw e => Throw e
      end
  end.

Definition settle (t : Test) (res : Response) : Outcome Response :=
  run_asserts (asserts t) res.

(** ** The [SuperRest] class *)

Record SuperRest := mkSuperRest {
  app : Application;
  expectedContentType : JsValue;
  pathPrefix : JsValue;
  updateMethod : JsValue
}.

(** [new SuperRest(app, options)] *)
Definition constructor (a : Application) (options : option Obj) : SuperRest :=
  let options := default ∅ options in
  {| app := a;
     expectedContentType := prop options "expectedContentType";
     pathPrefix := js_or (prop options "pathPrefix") (JStr EmptyString);
     updateMethod := js_or (prop options "updateMethod") (JStr "PUT") |}.

(** [v.toLowerCase()]: a method of strings only. *)
Definition call_toLowerCase (v : JsValue) : Outcome string :=
  match v with
  | JStr s => Return (toLowerCase s)
  | _ => Throw TypeError
  end.

(** The two expectations that [expect] resolves, lines 116 and 121. *)
Definition resolve_expectedStatus (options : Obj) : JsValue :=
  if negb (strict_equals (prop options "expectedStatus") JUndefined)
  then prop options "expectedStatus" else JNum 200.

Definition resolve_expectedContentType (self : SuperRest) (options : Obj)
  : JsValue :=
  if negb (strict_equals (prop options "expectedContentType") JUndefined)
  then prop options "expectedContentType" else expectedContentType self.

(** [expect(res, options)].  Reading a property of an [undefined]
    options argument is a [TypeError]. *)
Definition expect (self : SuperRest) (res : Response) (options : option Obj)
  : Outcome unit :=
  match options with
  | None => Throw TypeError
  | Some options =>
      let expectedStatus := resolve_expectedStatus options in
      if negb (strict_equals (JNum (status res)) expectedStatus) then
        Throw (Error ("Expected HTTP status code " +:+ to_string (JNum (status res))
                      +:+ " to equal " +:+ to_string expectedStatus))
      else
        let expectedContentType := resolve_expectedContentType self options in
        if isString expectedContentType
           && negb (strict_equals (get res "Content-Type") expectedContentType) then
          Throw (Error ("Expected HTTP Content-Type header " +:+ dquote
                        +:+ to_string (get res "Content-Type") +:+ dquote
                        +:+ " to equal " +:+ dquote
                        +:+ to_string expectedContentType +:+ dquote))
        else if isRegExp expectedContentType
                && negb (to_boolean (get res "Content-Type")) then
          Throw (Error ("Expected missing HTTP Content-Type header to match "
                        +:+ to_string expectedContentType))
        else if isRegExp expectedContentType
                && negb (str_match (get res "Content-Type") expectedContentType) then
          Throw (Error ("Expected HTTP Content-Type header " +:+ dquote
                        +:+ to_string (get res "Content-Type") +:+ dquote
                        +:+ " to match " +:+ to_string expectedContentType))
        else Return tt
  end.

Section Methods.

(** The names [n] for which [typeof supertest(app)[n]] is ['function']:
    the verbs the installed SuperTest offers. *)
Variable supertest_functions : gset string.

(** The path that [test] requests, lines 75 to 80. *)
Definition testPath (self : SuperRest) (path : string) (options : Obj) : string :=
  if to_boolean (prop options "pathPrefix") then
    to_string (prop options "pathPrefix") +:+ path
  else if to_boolean (pathPrefix self)
          && (strict_equals (prop options "pathPrefix") JUndefined
              || strict_equals (prop options "pathPrefix") (JBool true)) then
    to_string (pathPrefix self) +:+ path
  else path.

(** [test(method, path, body, options)] *)
Definition test (self : SuperRest) (method : JsValue) (path : string)
    (body : JsValue) (options : option Obj) : M Test :=
  let options := default ∅ options in
  agent ← supertest (app self);
  testMethod ← lift (call_toLowerCase (js_or method (JStr "GET")));
  if negb (bool_decide (testMethod ∈ supertest_functions)) then
    throw (Error ("supertest has no " +:+ dquote +:+ testMethod +:+ dquote
                  +:+ " function"))
  else
    t ← agent_verb agent testMethod (testPath self path options);
    t ← (if to_boolean body then send t body else mret t);
    chain_expect t (fun res => expect self res (Some options)).

(** The CRUD aliases. *)
Definition create (self : SuperRest) (path : string) (body : JsValue)
    (options : option Obj) : M Test :=
  test self (JStr "POST") path body
    (Some (defaults ∅ [options; Some {[ "expectedStatus" := JNum 201 ]}])).

Definition read (self : SuperRest) (path : string) (options : option Obj)
  : M Test :=
  test self (JStr "GET") path JUndefined options.

Definition retrieve (self : SuperRest) (path : string) (options : option Obj)
  : M Test :=
  read self path options.

Definition update (self : SuperRest) (path : string) (body : JsValue)
    (options : option Obj) : M Test :=
  let options := default ∅ options in
  test self (js_or (prop options "method") (updateMethod self)) path body
    (Some options).

Definition patch (self : SuperRest) (path : string) (body : JsValue)
    (options : option Obj) : M Test :=
  test self (JStr "PATCH") path body options.

Definition delete (self : SuperRest) (path : string) (body : JsValue)
    (options : option Obj) : M Test :=
  test self (JStr "DELETE") path body options.

Definition destroy (self : SuperRest) (path : string) (body : JsValue)
    (options : option Obj) : M Test :=
  delete self path body options.

End Methods.

(** ** Fixtures

    A set of agent functions, a few instances, two patterns and a few
    responses on which the statements below are evaluated. *)

Definition http_verbs : gset string :=
  {[ "get"; "post"; "put"; "patch"; "delete"; "head"; "options"; "del" ]}.

Definition the_app : Application := AppRef 0.

(** Is [p] a prefix of [s], and does [s] contain [p]. *)
Fixpoint starts_with (p s : string) : bool :=
  match p, s with
  | EmptyString, _ => true
  | String a p', String b s' => Ascii.eqb a b && starts_with p' s'
  | String _ _, EmptyString => false
  end.

Fixpoint contains (p s : string) : bool :=
  starts_with p s
  || match s with
     | EmptyString => false
     | String _ s' => contains p s'
     end.

(** [/^application\/json/] and [/json/]. *)
Definition re_json_prefix : RegExp :=
  mkRegExp "^application\/json" EmptyString (starts_with "application/json").

Definition re_json : RegExp :=
  mkRegExp "json" EmptyString (contains "json").

Definition api : SuperRest :=
  constructor the_app (Some {[ "pathPrefix" := JStr "/api" ]}).

Definition res_json : Response :=
  mkResponse 200 {[ "content-type" := "application/json; charset=utf-8" ]}.

Definition res_html : Response :=
  mkResponse 200 {[ "content-type" := "text/html" ]}.

Definition res_bare : Response := mkResponse 200 ∅.

Definition res_blank : Response :=
  mkResponse 200 {[ "content-type" := EmptyString ]}.

Definition api_number : SuperRest :=
  constructor the_app (Some {[ "expectedContentType" := JNum 42 ]}).

Definition api_json_string : SuperRest :=
  constructor the_app (Some {[ "expectedContentType" := JStr "application/json" ]}).

Definition api_html_string : SuperRest :=
  constructor the_app (Some {[ "expectedContentType" := JStr "text/html" ]}).

Definition api_json_pattern : SuperRest :=
  constructor the_app (Some {[ "expectedContentType" := JRegExp re_json ]}).

Definition res_created_html : Response :=
  mkResponse 201 {[ "content-type" := "text/html" ]}.

(** ** The error messages, as the documentation words them *)

Definition message_unsupported (verb : string) : string :=
  "supertest has no " +:+ dquote +:+ verb +:+ dquote +:+ " function".

Definition message_status (actual expected : string) : string :=
  "Expected HTTP status code " +:+ actual +:+ " to equal " +:+ expected.

Definition message_equal (actual expected : string) : string :=
  "Expected HTTP Content-Type header " +:+ dquote +:+ actual +:+ dquote
  +:+ " to equal " +:+ dquote +:+ expected +:+ dquote.

Definition message_missing (pattern : string) : string :=
  "Expected missing HTTP Content-Type header to match " +:+ pattern.

Definition message_match (actual pattern : string) : string :=
  "Expected HTTP Content-Type header " +:+ dquote +:+ actual +:+ dquote
  +:+ " to match " +:+ pattern.

(** The chain that [test] returns once the verb is accepted, and the
    calls it makes after [supertest(app)]. *)
Definition built_chain (self : SuperRest) (verb path : string)
    (body : JsValue) (options : Obj) : Test :=
  mkTest (app self) verb (testPath self path options)
         (if to_boolean body then Some body else None)
         [fun res => expect self res (Some options)].

Definition chain_calls (self : SuperRest) (verb path : string)
    (body : JsValue) (options : Obj) : list Call :=
  (CallVerb verb (testPath self path options)
   :: (if to_boolean body then [CallSend body] else []) ++ [CallExpect])%list.

(** * Properties *)

(** ** Values and option bags *)

Lemma strict_equals_undefined (v : JsValue) :
  strict_equals v JUndefined = true <-> v = JUndefined.
Proof. destruct v; simpl; split; congruence. Qed.

Lemma strict_equals_num (n : Z) (v : JsValue) :
  strict_equals (JNum n) v = true <-> v = JNum n.
Proof.
  destruct v; simpl; split; try congruence.
  - intros H. apply Z.eqb_eq in H. congruence.
  - intros [= ->]. apply Z.eqb_refl.
Qed.

Lemma strict_equals_str (v : JsValue) (s : string) :
  strict_equals v (JStr s) = true <-> v = JStr s.
Proof.
  destruct v; simpl; split; try congruence.
  - intros H. apply String.eqb_eq in H. congruence.
  - intros [= ->]. apply String.eqb_refl.
Qed.

Lemma strict_equals_false_iff (a b : JsValue) (P : Prop) :
  (strict_equals a b = true <-> P) -> (strict_equals a b = false <-> ~ P).
Proof.
  intros H. rewrite <- H. symmetry. apply not_true_iff_false.
Qed.

Lemma prop_empty (k : string) : prop ∅ k = JUndefined.
Proof. unfold prop. by rewrite lookup_empty. Qed.

Lemma prop_insert_eq (o : Obj) (k : string) (v : JsValue) :
  prop (<[k := v]> o) k = v.
Proof. unfold prop. by rewrite lookup_insert_eq. Qed.

Lemma prop_insert_ne (o : Obj) (k k' : string) (v : JsValue) :
  k ≠ k' -> prop (<[k := v]> o) k' = prop o k'.
Proof. intros H. unfold prop. by rewrite lookup_insert_ne. Qed.

(** A property that a value-less bag reads as [undefined] is filled from
    the source; any other is kept. *)
Lemma prop_defaults_step (dest src : Obj) (k : string) :
  prop (defaults_step dest (Some src)) k =
  if strict_equals (prop dest k) JUndefined then prop src k else prop dest k.
Proof.
  unfold defaults_step.
  apply (map_fold_weak_ind (fun (r : Obj) (m : Obj) =>
    prop r k = if strict_equals (prop dest k) JUndefined then prop m k
               else prop dest k)).
  - rewrite prop_empty. destruct (strict_equals (prop dest k) JUndefined) eqn:E; [|done].
    by apply strict_equals_undefined in E.
  - intros i x m r Hi IH.
    destruct (decide (i = k)) as [->|Hne].
    + assert (Hm : prop m k = JUndefined) by (unfold prop; by rewrite Hi).
      rewrite Hm in IH. rewrite prop_insert_eq.
      destruct (strict_equals (prop dest k) JUndefined) eqn:E.
      * rewrite IH. simpl. apply prop_insert_eq.
      * rewrite IH, E. exact IH.
    + rewrite (prop_insert_ne m i k x Hne).
      destruct (strict_equals (prop r i) JUndefined);
        [rewrite prop_insert_ne by done|]; exact IH.
Qed.

Lemma prop_singleton_eq (k : string) (v : JsValue) : prop {[ k := v ]} k = v.
Proof. unfold prop. by rewrite lookup_singleton_eq. Qed.

Lemma prop_singleton_ne (k k' : string) (v : JsValue) :
  k ≠ k' -> prop ({[ k := v ]} : Obj) k' = JUndefined.
Proof. intros H. unfold prop. by rewrite lookup_singleton_ne. Qed.

(** The bag that [create] hands to [test]. *)
Lemma prop_create_options (options : option Obj) (k : string) :
  prop (defaults ∅ [options; Some {[ "expectedStatus" := JNum 201 ]}]) k =
  if String.eqb k "expectedStatus" then
    match prop (default ∅ options) "expectedStatus" with
    | JUndefined => JNum 201
    | v => v
    end
  else prop (default ∅ options) k.
Proof.
  unfold defaults. cbn [foldl].
  rewrite prop_defaults_step.
  assert (H1 : prop (defaults_step ∅ options) k = prop (default ∅ options) k).
  { destruct options as [o|]; [|done]. rewrite prop_defaults_step.
    by rewrite prop_empty. }
  rewrite H1.
  destruct (String.eqb_spec k "expectedStatus") as [->|Hne].
  - rewrite prop_singleton_eq.
    destruct (prop (default ∅ options) "expectedStatus"); done.
  - rewrite prop_singleton_ne by done.
    destruct (strict_equals (prop (default ∅ options) k) JUndefined) eqn:E; [|done].
    by apply strict_equals_undefined in E.
Qed.

(** ** The request builder *)

Lemma call_toLowerCase_default (m : JsValue) :
  to_boolean m = false ->
  call_toLowerCase (js_or m (JStr "GET")) = Return "get".
Proof. intros H. unfold js_or. by rewrite H. Qed.

Lemma call_toLowerCase_string (s : string) :
  s ≠ EmptyString ->
  call_toLowerCase (js_or (JStr s) (JStr "GET")) = Return (toLowerCase s).
Proof.
  intros H. unfold js_or. simpl.
  destruct (String.eqb_spec s EmptyString); [contradiction|done].
Qed.

(** An accepted verb: the chain is opened on the resolved path, the body
    is sent when it is truthy, and [expect] is registered once. *)
Lemma test_supported (fns : gset string) (self : SuperRest) (m : JsValue)
    (path : string) (body : JsValue) (options : option Obj)
    (tr : list Call) (verb : string) :
  call_toLowerCase (js_or m (JStr "GET")) = Return verb ->
  verb ∈ fns ->
  test fns self m path body options tr =
  (Return (built_chain self verb path body (default ∅ options)),
   (tr ++ CallSupertest (app self)
       :: chain_calls self verb path body (default ∅ options))%list).
Proof.
  intros Hv Hin. unfold test, mbind, M_bind, bind, supertest, lift, log, mret, M_ret, ret.
  rewrite Hv. rewrite (bool_decide_eq_true_2 _ Hin).
  unfold built_chain, chain_calls.
  destruct (to_boolean body); cbv -[expect testPath List.app app from_option empty];
    rewrite <- ?app_assoc; reflexivity.
Qed.

(** A rejected verb: [test] throws once the agent exists and before the
    chain is opened. *)
Lemma test_unsupported (fns : gset string) (self : SuperRest) (m : JsValue)
    (path : string) (body : JsValue) (options : option Obj)
    (tr : list Call) (verb : string) :
  call_toLowerCase (js_or m (JStr "GET")) = Return verb ->
  verb ∉ fns ->
  test fns self m path body options tr =
  (Throw (Error (message_unsupported verb)),
   (tr ++ [CallSupertest (app self)])%list).
Proof.
  intros Hv Hin. unfold test, mbind, M_bind, bind, supertest, lift, log, mret, M_ret, ret.
  rewrite Hv. rewrite (bool_decide_eq_false_2 _ Hin). reflexivity.
Qed.

(** The three branches of the path resolution. *)
Lemma testPath_own_prefix (self : SuperRest) (path : string) (options : Obj) :
  to_boolean (prop options "pathPrefix") = true ->
  testPath self path options = to_string (prop options "pathPrefix") +:+ path.
Proof. intros H. unfold testPath. by rewrite H. Qed.

Lemma testPath_instance_prefix (self : SuperRest) (path : string) (options : Obj) :
  to_boolean (pathPrefix self) = true ->
  prop options "pathPrefix" = JUndefined ->
  testPath self path options = to_string (pathPrefix self) +:+ path.
Proof. intros H1 H2. unfold testPath. by rewrite H2, H1. Qed.

Lemma testPath_falsy_defined (self : SuperRest) (path : string) (options : Obj) :
  to_boolean (prop options "pathPrefix") = false ->
  prop options "pathPrefix" ≠ JUndefined ->
  testPath self path options = path.
Proof.
  intros H1 H2. unfold testPath. rewrite H1.
  destruct (prop options "pathPrefix") as [| |[]| | | |]; try done;
    by rewrite andb_false_r.
Qed.

Lemma testPath_false (self : SuperRest) (path : string) (options : Obj) :
  prop options "pathPrefix" = JBool false ->
  testPath self path options = path.
Proof. intros H. apply testPath_falsy_defined; by rewrite H. Qed.

Lemma testPath_true (self : SuperRest) (path : string) (options : Obj) :
  prop options "pathPrefix" = JBool true ->
  testPath self path options = "true" +:+ path.
Proof. intros H. rewrite testPath_own_prefix; by rewrite H. Qed.

(** C1. With the instance prefix [/api] and the per-call option
    [pathPrefix: true], [test('GET', '/test', undefined, {pathPrefix:
    true})] opens the chain on [true/test]: the text of the boolean is
    prepended, not the instance prefix, so the request does not go to
    [/api/test].  The second branch of the resolution, which names
    [=== true], is never reached with that value. *)
Theorem test_pathPrefix_true_requests_true_text :
  snd (test http_verbs api (JStr "GET") "/test" JUndefined
         (Some {[ "pathPrefix" := JBool true ]}) [])
  = [CallSupertest the_app; CallVerb "get" "true/test"; CallExpect]
  /\ to_string (pathPrefix api) +:+ "/test" = "/api/test"
  /\ testPath api "/test" {[ "pathPrefix" := JBool true ]} ≠ "/api/test".
Proof. repeat split; [vm_compute; reflexivity ..|]. vm_compute. discriminate. Qed.



(** ** The assertion step *)

Lemma get_content_type (res : Response) :
  get res "Content-Type" =
  match header res !! "content-type" with
  | Some a => JStr a
  | None => JUndefined
  end.
Proof. reflexivity. Qed.

Lemma resolve_expectedStatus_cases (options : Obj) :
  resolve_expectedStatus options =
  match prop options "expectedStatus" with
  | JUndefined => JNum 200
  | v => v
  end.
Proof.
  unfold resolve_expectedStatus. by destruct (prop options "expectedStatus").
Qed.

Lemma resolve_expectedContentType_cases (self : SuperRest) (options : Obj) :
  resolve_expectedContentType self options =
  match prop options "expectedContentType" with
  | JUndefined => expectedContentType self
  | v => v
  end.
Proof.
  unfold resolve_expectedContentType.
  by destruct (prop options "expectedContentType").
Qed.

(** The status gate comes first: a status other than the expected one
    throws, whatever the content type and its expectation. *)
Lemma expect_status_mismatch (self : SuperRest) (res : Response) (options : Obj) :
  resolve_expectedStatus options ≠ JNum (status res) ->
  expect self res (Some options) =
  Throw (Error (message_status (to_string (JNum (status res)))
                               (to_string (resolve_expectedStatus options)))).
Proof.
  intros H. unfold expect.
  apply (strict_equals_false_iff _ _ _ (strict_equals_num _ _)) in H.
  by rewrite H.
Qed.

(** Past the status gate, the outcome is decided by the resolved
    content-type expectation and the header table. *)
Lemma expect_status_match (self : SuperRest) (res : Response) (options : Obj) :
  resolve_expectedStatus options = JNum (status res) ->
  expect self res (Some options) =
  match resolve_expectedContentType self options with
  | JStr e =>
      match header res !! "content-type" with
      | Some a => if String.eqb a e then Return tt
                  else Throw (Error (message_equal a e))
      | None => Throw (Error (message_equal "undefined" e))
      end
  | JRegExp r =>
      match header res !! "content-type" with
      | Some a =>
          if String.eqb a EmptyString
          then Throw (Error (message_missing (to_string (JRegExp r))))
          else if exec r a then Return tt
          else Throw (Error (message_match a (to_string (JRegExp r))))
      | None => Throw (Error (message_missing (to_string (JRegExp r))))
      end
  | _ => Return tt
  end.
Proof.
  intros H. unfold expect.
  apply strict_equals_num in H. rewrite H. cbn [negb].
  rewrite get_content_type.
  destruct (resolve_expectedContentType self options) as [| | | |e|r|]; try done.
  - destruct (header res !! "content-type") as [a|]; [|done].
    cbn. by destruct (String.eqb a e).
  - destruct (header res !! "content-type") as [a|]; [|done].
    cbn. destruct (String.eqb a EmptyString); [done|].
    cbn. by destruct (exec r a).
Qed.

(** An expectation that is neither a string nor a pattern is not checked. *)
Lemma expect_unchecked (self : SuperRest) (res : Response) (options : Obj) :
  isString (resolve_expectedContentType self options) = false ->
  isRegExp (resolve_expectedContentType self options) = false ->
  expect self res (Some options) =
  if strict_equals (JNum (status res)) (resolve_expectedStatus options)
  then Return tt
  else Throw (Error (message_status (to_string (JNum (status res)))
                                    (to_string (resolve_expectedStatus options)))).
Proof.
  intros Hs Hr.
  destruct (strict_equals (JNum (status res)) (resolve_expectedStatus options)) eqn:E.
  - apply strict_equals_num in E. rewrite (expect_status_match _ _ _ E).
    by destruct (resolve_expectedContentType self options).
  - apply expect_status_mismatch.
    by apply (strict_equals_false_iff _ _ _ (strict_equals_num _ _)).
Qed.

(** C5. [expect] resolves the expected status as
    [options.expectedStatus] when that is not [undefined] and as 200
    otherwise; a response whose status differs makes it throw
    [Expected HTTP status code <actual> to equal <expected>].  Nothing
    is assumed about the content type or its expectation: the status
    gate runs first, so when both would mismatch this is the error
    raised. *)
Theorem expect_status_gate (self : SuperRest) (res : Response) (options : Obj) :
  resolve_expectedStatus options ≠ JNum (status res) ->
  resolve_expectedStatus options =
    match prop options "expectedStatus" with
    | JUndefined => JNum 200
    | v => v
    end
  /\ expect self res (Some options) =
     Throw (Error ("Expected HTTP status code " +:+ to_string (JNum (status res))
                   +:+ " to equal " +:+ to_string (resolve_expectedStatus options))).
Proof.
  intros H. split.
  - apply resolve_expectedStatus_cases.
  - exact (expect_status_mismatch self res options H).
Qed.

(** A 201 [text/html] response against the default status and the
    expectation [application/json]: both mismatch, the status is reported. *)
Lemma expect_status_gate_witness :
  resolve_expectedStatus ∅ = JNum 200
  /\ expect api_json_string res_created_html (Some ∅) =
     Throw (Error "Expected HTTP status code 201 to equal 200").
Proof.
  assert (H : resolve_expectedStatus ∅ ≠ JNum (status res_created_html))
    by (vm_compute; intros H; discriminate H).
  exact (expect_status_gate api_json_string res_created_html ∅ H).
Defined.

(** The instance enters [expect] through its default expectation only. *)
Lemma expect_instance_irrelevant (self self' : SuperRest) (res : Response)
    (options : Obj) :
  prop options "expectedContentType" ≠ JUndefined ->
  expect self res (Some options) = expect self' res (Some options).
Proof.
  intros H. unfold expect, resolve_expectedContentType.
  apply (strict_equals_false_iff _ _ _ (strict_equals_undefined _)) in H.
  by rewrite H.
Qed.

(** C6. Past the status gate, [expect] checks the response against
    [options.expectedContentType] when that is not [undefined] and
    against the instance default otherwise, as the kind of that value
    asks: equality for a string, a non-empty matching header for a
    pattern, nothing for any other value.  So with an [undefined]
    per-call value the instance default is the one applied (a header
    that differs from a string default makes [expect] throw); when
    neither is configured [expect] returns whatever the headers are;
    and a per-call value overrides the instance default: with one, the
    outcome is the same on every instance, and a per-call string that
    the header does not equal makes [expect] throw also on an instance
    whose default the response matches. *)
Theorem expectedContentType_precedence (self : SuperRest) (res : Response)
    (options : Obj) :
  resolve_expectedStatus options = JNum (status res) ->
  expect self res (Some options) =
    match
      match prop options "expectedContentType" with
      | JUndefined => expectedContentType self
      | v => v
      end
    with
    | JStr e =>
        match header res !! "content-type" with
        | Some actual => if String.eqb actual e then Return tt
                         else Throw (Error (message_equal actual e))
        | None => Throw (Error (message_equal "undefined" e))
        end
    | JRegExp r =>
        match header res !! "content-type" with
        | Some actual =>
            if String.eqb actual EmptyString
            then Throw (Error (message_missing (to_string (JRegExp r))))
            else if exec r actual then Return tt
            else Throw (Error (message_match actual (to_string (JRegExp r))))
        | None => Throw (Error (message_missing (to_string (JRegExp r))))
        end
    | _ => Return tt
    end
  /\ (prop options "expectedContentType" = JUndefined ->
      forall e, expectedContentType self = JStr e ->
      get res "Content-Type" ≠ JStr e ->
      expect self res (Some options) =
      Throw (Error (message_equal (to_string (get res "Content-Type")) e)))
  /\ (prop options "expectedContentType" = JUndefined ->
      expectedContentType self = JUndefined ->
      expect self res (Some options) = Return tt)
  /\ (forall self', prop options "expectedContentType" ≠ JUndefined ->
      expect self res (Some options) = expect self' res (Some options))
  /\ (forall e, prop options "expectedContentType" = JStr e ->
      get res "Content-Type" ≠ JStr e ->
      expect self res (Some options) =
      Throw (Error (message_equal (to_string (get res "Content-Type")) e))).
Proof.
  intros Hst.
  assert (Hall := expect_status_match self res options Hst).
  rewrite resolve_expectedContentType_cases in Hall.
  assert (Hstr : forall e,
    match prop options "expectedContentType" with
    | JUndefined => expectedContentType self
    | v => v
    end = JStr e ->
    get res "Content-Type" ≠ JStr e ->
    expect self res (Some options) =
    Throw (Error (message_equal (to_string (get res "Content-Type")) e))).
  { intros e He Hne. rewrite Hall, He. rewrite get_content_type in Hne |- *.
    destruct (header res !! "content-type") as [actual|]; [|done].
    destruct (String.eqb_spec actual e) as [Heq|Hneq]; [|done].
    rewrite Heq in Hne. contradiction. }
  split; [exact Hall|]. split; [|split; [|split]].
  - intros Ho e Hi. apply Hstr. by rewrite Ho.
  - intros Ho Hi. rewrite Hall, Ho, Hi. reflexivity.
  - intros self' Ho. by apply expect_instance_irrelevant.
  - intros e Ho. apply Hstr. by rewrite Ho.
Qed.

(** A [text/html] response: the instance default [application/json] is
    applied when the call gives no value and rejects it; the per-call
    value [text/html] overrides that default and accepts it; on an
    unconfigured instance it passes. *)
Lemma expectedContentType_precedence_witness :
  expect api_json_string res_html (Some ∅) =
    Throw (Error (message_equal "text/html" "application/json"))
  /\ expect api_json_string res_html
       (Some {[ "expectedContentType" := JStr "text/html" ]}) = Return tt
  /\ expect (constructor the_app None) res_html (Some ∅) = Return tt.
Proof.
  split; [|split].
  - exact (proj1 (expectedContentType_precedence api_json_string res_html ∅ eq_refl)).
  - exact (proj1 (expectedContentType_precedence api_json_string res_html
                    {[ "expectedContentType" := JStr "text/html" ]} eq_refl)).
  - exact (proj1 (expectedContentType_precedence (constructor the_app None)
                    res_html ∅ eq_refl)).
Defined.

(** C2 (as the specification states it, refuted).  An instance built
    with the number 42 as [expectedContentType] accepts a [text/html]
    response: no error is raised at assertion time. *)
Lemma expect_malformed_contentType_not_surfaced :
  isString (expectedContentType api_number) = false
  /\ isRegExp (expectedContentType api_number) = false
  /\ expect api_number res_html (Some ∅) = Return tt
  /\ ~ (exists e, expect api_number res_html (Some ∅) = Throw e).
Proof.
  repeat split; try (vm_compute; reflexivity).
  intros [e H]. vm_compute in H. discriminate H.
Qed.

(** C2 (amended).  The constructor stores [expectedContentType] as given,
    and when the stored value is neither a string nor a pattern and the
    call gives none of its own, [expect] makes no content-type check:
    its outcome is that of the status gate alone, so with the expected
    status it returns whatever the response's Content-Type is. *)
Theorem expect_malformed_contentType_unchecked (a : Application)
    (ctorOptions : option Obj) (res : Response) (options : Obj) :
  let self := constructor a ctorOptions in
  isString (prop (default ∅ ctorOptions) "expectedContentType") = false ->
  isRegExp (prop (default ∅ ctorOptions) "expectedContentType") = false ->
  prop options "expectedContentType" = JUndefined ->
  expectedContentType self = prop (default ∅ ctorOptions) "expectedContentType"
  /\ expect self res (Some options) =
     if strict_equals (JNum (status res)) (resolve_expectedStatus options)
     then Return tt
     else Throw (Error (message_status (to_string (JNum (status res)))
                                       (to_string (resolve_expectedStatus options)))).
Proof.
  intros self Hs Hr Ho. split; [reflexivity|].
  apply expect_unchecked; rewrite resolve_expectedContentType_cases, Ho; assumption.
Qed.

(** The instance built with 42 and a 200 [text/html] response. *)
Lemma expect_malformed_contentType_unchecked_witness :
  expectedContentType api_number = JNum 42
  /\ expect api_number res_html (Some ∅) = Return tt.
Proof.
  exact (expect_malformed_contentType_unchecked the_app
           (Some {[ "expectedContentType" := JNum 42 ]}) res_html ∅
           eq_refl eq_refl eq_refl).
Defined.

(** C3 (as the specification states it, refuted).  For a response with
    no Content-Type header and the string expectation
    [application/json], the message embeds the text [undefined] between
    the quotes, not an empty string. *)
Lemma expect_missing_header_prints_undefined :
  header res_bare !! "content-type" = None
  /\ expect api_json_string res_bare (Some ∅) =
     Throw (Error (message_equal "undefined" "application/json"))
  /\ expect api_json_string res_bare (Some ∅) ≠
     Throw (Error (message_equal EmptyString "application/json")).
Proof.
  repeat split; try (vm_compute; reflexivity).
  vm_compute. intros H. discriminate H.
Qed.

(** C3 (amended).  With a matching status and a string expectation [e],
    [expect] returns exactly when the Content-Type header is present and
    equal to [e]; otherwise it throws
    [Expected HTTP Content-Type header "<actual>" to equal "<e>"], where
    <actual> is the header value, and the text [undefined] when the
    header is missing. *)
Theorem expect_string_contentType (self : SuperRest) (res : Response)
    (options : Obj) (e : string) :
  resolve_expectedStatus options = JNum (status res) ->
  resolve_expectedContentType self options = JStr e ->
  expect self res (Some options) =
  match header res !! "content-type" with
  | Some actual =>
      if String.eqb actual e then Return tt
      else Throw (Error ("Expected HTTP Content-Type header " +:+ dquote +:+ actual
                         +:+ dquote +:+ " to equal " +:+ dquote +:+ e +:+ dquote))
  | None =>
      Throw (Error ("Expected HTTP Content-Type header " +:+ dquote +:+ "undefined"
                    +:+ dquote +:+ " to equal " +:+ dquote +:+ e +:+ dquote))
  end.
Proof.
  intros Hst He. rewrite (expect_status_match _ _ _ Hst), He. reflexivity.
Qed.

(** The unit test of a string that is not an exact match. *)
Lemma expect_string_contentType_witness :
  expect api_json_string res_json (Some ∅) =
  Throw (Error (message_equal "application/json; charset=utf-8" "application/json")).
Proof.
  exact (expect_string_contentType api_json_string res_json ∅ "application/json"
           eq_refl eq_refl).
Defined.

(** C7 (as the specification states it, refuted).  A response whose
    Content-Type header is present with an empty value, checked against
    the pattern [/json/] that it does not match, is reported with the
    missing-header message and not with the non-matching one. *)
Lemma expect_blank_header_reported_missing :
  header res_blank !! "content-type" = Some EmptyString
  /\ exec re_json EmptyString = false
  /\ expect api_json_pattern res_blank (Some ∅) =
     Throw (Error "Expected missing HTTP Content-Type header to match /json/")
  /\ expect api_json_pattern res_blank (Some ∅) ≠
     Throw (Error (message_match EmptyString "/json/")).
Proof.
  repeat split; try (vm_compute; reflexivity).
  vm_compute. intros H. discriminate H.
Qed.

(** C7 (amended).  With a matching status and a pattern expectation,
    [expect] throws [Expected missing HTTP Content-Type header to match
    <pattern>] when the header is absent or empty; throws
    [Expected HTTP Content-Type header "<actual>" to match <pattern>]
    when it is non-empty and the pattern does not match it; and returns
    when it is non-empty and the pattern matches. *)
Theorem expect_pattern_contentType (self : SuperRest) (res : Response)
    (options : Obj) (r : RegExp) :
  resolve_expectedStatus options = JNum (status res) ->
  resolve_expectedContentType self options = JRegExp r ->
  expect self res (Some options) =
  match header res !! "content-type" with
  | None =>
      Throw (Error ("Expected missing HTTP Content-Type header to match "
                    +:+ "/" +:+ source r +:+ "/" +:+ flags r))
  | Some actual =>
      if String.eqb actual EmptyString then
        Throw (Error ("Expected missing HTTP Content-Type header to match "
                      +:+ "/" +:+ source r +:+ "/" +:+ flags r))
      else if exec r actual then Return tt
      else Throw (Error ("Expected HTTP Content-Type header " +:+ dquote +:+ actual
                         +:+ dquote +:+ " to match "
                         +:+ "/" +:+ source r +:+ "/" +:+ flags r))
  end.
Proof.
  intros Hst He. rewrite (expect_status_match _ _ _ Hst), He. reflexivity.
Qed.

(** Scenario c of the specification: [/^application\/json/] against
    [text/html]. *)
Lemma expect_pattern_contentType_witness :
  expect (constructor the_app
            (Some {[ "expectedContentType" := JRegExp re_json_prefix ]}))
         res_html (Some ∅) =
  Throw (Error (message_match "text/html" "/^application\/json/")).
Proof.
  exact (expect_pattern_contentType
           (constructor the_app
              (Some {[ "expectedContentType" := JRegExp re_json_prefix ]}))
           res_html ∅ re_json_prefix eq_refl eq_refl).
Defined.

(** ** The aliases *)

Lemma js_or_truthy (a b : JsValue) : to_boolean a = true -> js_or a b = a.
Proof. intros H. unfold js_or. by rewrite H. Qed.

Lemma js_or_falsy (a b : JsValue) : to_boolean a = false -> js_or a b = b.
Proof. intros H. unfold js_or. by rewrite H. Qed.

Lemma js_or_string_nonempty (a : JsValue) (d s : string) :
  d ≠ EmptyString -> js_or a (JStr d) = JStr s -> s ≠ EmptyString.
Proof.
  intros Hd. unfold js_or. destruct (to_boolean a) eqn:E.
  - intros -> ->. discriminate E.
  - intros [= <-]. exact Hd.
Qed.

Lemma testPath_ext (self : SuperRest) (path : string) (o o' : Obj) :
  prop o "pathPrefix" = prop o' "pathPrefix" ->
  testPath self path o = testPath self path o'.
Proof. intros H. unfold testPath. by rewrite H. Qed.

Lemma settle_built_chain (self : SuperRest) (verb path : string)
    (body : JsValue) (o : Obj) (res : Response) :
  settle (built_chain self verb path body o) res =
  match expect self res (Some o) with
  | Return _ => Return res
  | Throw e => Throw e
  end.
Proof. unfold settle, built_chain. cbn [asserts run_asserts]. reflexivity. Qed.

Lemma expect_same_expectations (self : SuperRest) (res : Response) (o o' : Obj) :
  resolve_expectedStatus o = resolve_expectedStatus o' ->
  prop o "expectedContentType" = prop o' "expectedContentType" ->
  expect self res (Some o) = expect self res (Some o').
Proof.
  intros H1 H2. unfold expect, resolve_expectedContentType. by rewrite H1, H2.
Qed.

Lemma resolve_expectedStatus_insert (o : Obj) (x : JsValue) :
  x ≠ JUndefined -> resolve_expectedStatus (<[ "expectedStatus" := x ]> o) = x.
Proof.
  intros H. rewrite resolve_expectedStatus_cases, prop_insert_eq.
  by destruct x.
Qed.

(** A call of [test] whose verb the agent offers, seen from the bag [o]
    its options agree with on the three properties read: the calls
    made, the chain returned and how the chain settles. *)
Lemma test_issues (fns : gset string) (self : SuperRest) (m : JsValue)
    (path : string) (b : JsValue) (given : option Obj) (o : Obj)
    (tr : list Call) (verb : string) (x : JsValue) :
  call_toLowerCase (js_or m (JStr "GET")) = Return verb ->
  verb ∈ fns ->
  prop (default ∅ given) "pathPrefix" = prop o "pathPrefix" ->
  prop (default ∅ given) "expectedContentType" = prop o "expectedContentType" ->
  resolve_expectedStatus (default ∅ given) = x ->
  x ≠ JUndefined ->
  exists t,
    test fns self m path b given tr =
      (Return t,
       (tr ++ CallSupertest (app self) :: CallVerb verb (testPath self path o)
           :: (if to_boolean b then [CallSend b] else []) ++ [CallExpect])%list)
    /\ method t = verb
    /\ url t = testPath self path o
    /\ (forall res,
          settle t res =
          match expect self res (Some (<[ "expectedStatus" := x ]> o)) with
          | Return _ => Return res
          | Throw e => Throw e
          end)
    /\ (forall res, x ≠ JNum (status res) ->
          settle t res =
          Throw (Error (message_status (to_string (JNum (status res)))
                                       (to_string x)))).
Proof.
  intros Hv Hin Hp Hc Hs Hx.
  exists (built_chain self verb path b (default ∅ given)).
  rewrite (test_supported fns self m path b given tr verb Hv Hin).
  unfold chain_calls. rewrite (testPath_ext self path _ _ Hp).
  split; [reflexivity|]. split; [reflexivity|].
  split; [exact (testPath_ext self path _ _ Hp)|]. split.
  - intros res. rewrite settle_built_chain.
    rewrite (expect_same_expectations self res (default ∅ given)
               (<[ "expectedStatus" := x ]> o)); [reflexivity| |].
    + by rewrite Hs, (resolve_expectedStatus_insert o x Hx).
    + rewrite Hc. symmetry. by apply prop_insert_ne.
  - intros res Hne. rewrite settle_built_chain.
    rewrite (expect_status_mismatch self res (default ∅ given));
      rewrite Hs; [reflexivity|exact Hne].
Qed.

(** C8. [create] calls [test] with the method [POST] and a bag that
    reads, at [expectedStatus], the caller's value when that is not
    [undefined] and 201 otherwise, and at every other property what the
    caller's bag reads; each other alias hands the caller's bag to
    [test] as it is.  When the agent offers the verb, the alias opens
    one chain with it on the path resolved from the caller's options,
    sends the body when it is truthy and registers the assertion; the
    chain settles as [expect] decides for the caller's options with
    [expectedStatus] set to the caller's value or the alias default,
    201 for [create] and 200 for every other alias, and a response with
    another status is rejected with the status message. *)
Theorem create_expectedStatus_default (fns : gset string) (self : SuperRest)
    (path : string) (body : JsValue) (options : option Obj) (tr : list Call) :
  let o := default ∅ options in
  let o' := defaults ∅ [options; Some {[ "expectedStatus" := JNum 201 ]}] in
  let expected (dflt : Z) :=
    match prop o "expectedStatus" with JUndefined => JNum dflt | v => v end in
  let issues (r : Outcome Test * list Call) (verb : string) (b : JsValue)
             (dflt : Z) :=
    exists t,
      r = (Return t,
           (tr ++ CallSupertest (app self) :: CallVerb verb (testPath self path o)
               :: (if to_boolean b then [CallSend b] else []) ++ [CallExpect])%list)
      /\ method t = verb
      /\ url t = testPath self path o
      /\ (forall res,
            settle t res =
            match expect self res
                    (Some (<[ "expectedStatus" := expected dflt ]> o)) with
            | Return _ => Return res
            | Throw e => Throw e
            end)
      /\ (forall res, expected dflt ≠ JNum (status res) ->
            settle t res =
            Throw (Error ("Expected HTTP status code "
                          +:+ to_string (JNum (status res))
                          +:+ " to equal " +:+ to_string (expected dflt)))) in
  create fns self path body options = test fns self (JStr "POST") path body (Some o')
  /\ resolve_expectedStatus o' = expected 201
  /\ (forall k, k ≠ "expectedStatus" -> prop o' k = prop o k)
  /\ read fns self path options = test fns self (JStr "GET") path JUndefined options
  /\ retrieve fns self path options = test fns self (JStr "GET") path JUndefined options
  /\ update fns self path body options =
     test fns self (js_or (prop o "method") (updateMethod self)) path body (Some o)
  /\ patch fns self path body options = test fns self (JStr "PATCH") path body options
  /\ delete fns self path body options = test fns self (JStr "DELETE") path body options
  /\ destroy fns self path body options = test fns self (JStr "DELETE") path body options
  /\ resolve_expectedStatus o = expected 200
  /\ ("post" ∈ fns -> issues (create fns self path body options tr) "post" body 201)
  /\ ("get" ∈ fns -> issues (read fns self path options tr) "get" JUndefined 200)
  /\ ("get" ∈ fns -> issues (retrieve fns self path options tr) "get" JUndefined 200)
  /\ ("patch" ∈ fns -> issues (patch fns self path body options tr) "patch" body 200)
  /\ ("delete" ∈ fns -> issues (delete fns self path body options tr) "delete" body 200)
  /\ ("delete" ∈ fns -> issues (destroy fns self path body options tr) "delete" body 200)
  /\ (forall s, js_or (prop o "method") (updateMethod self) = JStr s ->
      s ≠ EmptyString -> toLowerCase s ∈ fns ->
      issues (update fns self path body options tr) (toLowerCase s) body 200).
Proof.
  intros o o' expected issues.
  assert (Hx : forall d, expected d ≠ JUndefined).
  { intros d. unfold expected. by destruct (prop o "expectedStatus"). }
  assert (Ho' : forall k, prop o' k =
                          if String.eqb k "expectedStatus" then expected 201
                          else prop o k).
  { intros k. unfold o', expected. apply prop_create_options. }
  assert (H201 : resolve_expectedStatus o' = expected 201).
  { rewrite resolve_expectedStatus_cases, (Ho' "expectedStatus"). cbn.
    specialize (Hx 201%Z). by destruct (expected 201). }
  assert (Hne : forall k, k ≠ "expectedStatus" -> prop o' k = prop o k).
  { intros k Hk. rewrite Ho'.
    destruct (String.eqb_spec k "expectedStatus"); [contradiction|done]. }
  assert (H200 : resolve_expectedStatus o = expected 200).
  { apply resolve_expectedStatus_cases. }
  split; [reflexivity|]. split; [exact H201|]. split; [exact Hne|].
  do 6 (split; [reflexivity|]). split; [exact H200|].
  split; [|split; [|split; [|split; [|split; [|split]]]]].
  - intros Hin.
    exact (test_issues fns self (JStr "POST") path body (Some o') o tr "post"
             (expected 201) eq_refl Hin
             (Hne "pathPrefix" ltac:(discriminate))
             (Hne "expectedContentType" ltac:(discriminate))
             H201 (Hx _)).
  - intros Hin.
    exact (test_issues fns self (JStr "GET") path JUndefined options o tr "get"
             (expected 200) eq_refl Hin eq_refl eq_refl H200 (Hx _)).
  - intros Hin.
    exact (test_issues fns self (JStr "GET") path JUndefined options o tr "get"
             (expected 200) eq_refl Hin eq_refl eq_refl H200 (Hx _)).
  - intros Hin.
    exact (test_issues fns self (JStr "PATCH") path body options o tr "patch"
             (expected 200) eq_refl Hin eq_refl eq_refl H200 (Hx _)).
  - intros Hin.
    exact (test_issues fns self (JStr "DELETE") path body options o tr "delete"
             (expected 200) eq_refl Hin eq_refl eq_refl H200 (Hx _)).
  - intros Hin.
    exact (test_issues fns self (JStr "DELETE") path body options o tr "delete"
             (expected 200) eq_refl Hin eq_refl eq_refl H200 (Hx _)).
  - intros s Hs Hne' Hin.
    change (update fns self path body options tr)
      with (test fns self (js_or (prop o "method") (updateMethod self)) path body
              (Some o) tr).
    rewrite Hs.
    exact (test_issues fns self (JStr s) path body (Some o) o tr (toLowerCase s)
             (expected 200) (call_toLowerCase_string s Hne') Hin eq_refl eq_refl
             H200 (Hx _)).
Qed.

(** The unit tests of [create]: the bag handed to [test]. *)
Example create_options_default :
  defaults ∅ [Some ({[ "baz" := JStr "qux" ]} : Obj);
              Some {[ "expectedStatus" := JNum 201 ]}]
  = <[ "expectedStatus" := JNum 201 ]> {[ "baz" := JStr "qux" ]}.
Proof. vm_compute. reflexivity. Qed.

Example create_options_overridden :
  defaults ∅ [Some (<[ "expectedStatus" := JNum 200 ]> {[ "baz" := JStr "qux" ]} : Obj);
              Some {[ "expectedStatus" := JNum 201 ]}]
  = <[ "expectedStatus" := JNum 200 ]> {[ "baz" := JStr "qux" ]}.
Proof. vm_compute. reflexivity. Qed.

(** Scenario b of the specification: a [create] answered with 200. *)
Example create_rejects_200 :
  match fst (create http_verbs (constructor the_app None) "/users"
               (JObject [("name", JStr "Jo")]) None []) with
  | Return t => method t = "post" /\ settle t res_bare =
                Throw (Error "Expected HTTP status code 200 to equal 201")
  | Throw _ => False
  end.
Proof. vm_compute. split; reflexivity. Qed.

(** C9. [update] calls [test] with [options.method] when that is truthy,
    else with the [updateMethod] given at construction when that is
    truthy, else with [PUT]; and when the method so resolved is a string
    whose lower-cased form the agent offers, the chain is opened with
    that verb. *)
Theorem update_method_precedence (fns : gset string) (a : Application)
    (ctorOptions : option Obj) (path : string) (body : JsValue)
    (options : option Obj) :
  let self := constructor a ctorOptions in
  let o := default ∅ options in
  let given := prop (default ∅ ctorOptions) "updateMethod" in
  let resolved := js_or (prop o "method") (js_or given (JStr "PUT")) in
  update fns self path body options = test fns self resolved path body (Some o)
  /\ (to_boolean (prop o "method") = true -> resolved = prop o "method")
  /\ (to_boolean (prop o "method") = false -> to_boolean given = true ->
      resolved = given)
  /\ (to_boolean (prop o "method") = false -> to_boolean given = false ->
      resolved = JStr "PUT")
  /\ (forall s tr, resolved = JStr s -> toLowerCase s ∈ fns ->
      update fns self path body options tr =
      (Return (built_chain self (toLowerCase s) path body o),
       (tr ++ CallSupertest a :: chain_calls self (toLowerCase s) path body o)%list)).
Proof.
  intros self o given resolved. split; [reflexivity|].
  split; [|split; [|split]].
  - intros H. unfold resolved. by apply js_or_truthy.
  - intros H1 H2. unfold resolved. rewrite (js_or_falsy _ _ H1).
    by apply js_or_truthy.
  - intros H1 H2. unfold resolved. rewrite (js_or_falsy _ _ H1).
    by apply js_or_falsy.
  - intros s tr Hs Hin.
    change (update fns self path body options tr)
      with (test fns self resolved path body (Some o) tr).
    assert (Hne : s ≠ EmptyString).
    { unfold resolved in Hs. destruct (to_boolean (prop o "method")) eqn:E.
      - rewrite (js_or_truthy _ _ E) in Hs. rewrite Hs in E.
        intros ->. discriminate E.
      - rewrite (js_or_falsy _ _ E) in Hs.
        by apply (js_or_string_nonempty given "PUT" s). }
    rewrite Hs.
    exact (test_supported fns self (JStr s) path body (Some o) tr (toLowerCase s)
             (call_toLowerCase_string s Hne) Hin).
Qed.

(** The unit tests of [update]: the method handed to [test]. *)
Example update_default_method :
  snd (update http_verbs (constructor the_app None) "/test"
         (JObject [("foo", JStr "bar")]) None [])
  = [CallSupertest the_app; CallVerb "put" "/test";
     CallSend (JObject [("foo", JStr "bar")]); CallExpect].
Proof. vm_compute. reflexivity. Qed.

Example update_constructor_method :
  snd (update http_verbs
         (constructor the_app (Some {[ "updateMethod" := JStr "PATCH" ]}))
         "/test" (JObject [("foo", JStr "bar")]) None [])
  = [CallSupertest the_app; CallVerb "patch" "/test";
     CallSend (JObject [("foo", JStr "bar")]); CallExpect].
Proof. vm_compute. reflexivity. Qed.

Example update_call_method :
  snd (update http_verbs
         (constructor the_app (Some {[ "updateMethod" := JStr "PATCH" ]}))
         "/test" (JObject [("foo", JStr "bar")])
         (Some {[ "method" := JStr "POST" ]}) [])
  = [CallSupertest the_app; CallVerb "post" "/test";
     CallSend (JObject [("foo", JStr "bar")]); CallExpect].
Proof. vm_compute. reflexivity. Qed.

(** C10. On an instance constructed with a truthy (non-empty)
    [pathPrefix], a call whose [options.pathPrefix] is the empty string
    opens the chain on the path as supplied: the empty string behaves as
    [false] does, whereas an option that reads [undefined] gets the
    instance prefix prepended. *)
Theorem test_empty_pathPrefix_disables_prefix (fns : gset string)
    (a : Application) (ctorOptions : option Obj) (m : JsValue) (path : string)
    (body : JsValue) (options : Obj) (tr : list Call) (verb : string) :
  let self := constructor a ctorOptions in
  to_boolean (prop (default ∅ ctorOptions) "pathPrefix") = true ->
  prop options "pathPrefix" = JStr EmptyString ->
  call_toLowerCase (js_or m (JStr "GET")) = Return verb ->
  verb ∈ fns ->
  (exists t,
      test fns self m path body (Some options) tr =
      (Return t,
       (tr ++ CallSupertest a :: CallVerb verb path
           :: (if to_boolean body then [CallSend body] else []) ++ [CallExpect])%list)
      /\ url t = path)
  /\ testPath self path (<[ "pathPrefix" := JBool false ]> options) = path
  /\ (forall options' : Obj, prop options' "pathPrefix" = JUndefined ->
      testPath self path options' =
      to_string (prop (default ∅ ctorOptions) "pathPrefix") +:+ path).
Proof.
  intros self Hp Ho Hv Hin.
  assert (Hpath : testPath self path options = path).
  { apply testPath_falsy_defined; rewrite Ho; done. }
  split; [|split].
  - exists (built_chain self verb path body options). split.
    + rewrite (test_supported fns self m path body (Some options) tr verb Hv Hin).
      unfold chain_calls. cbn [default from_option id]. rewrite Hpath. reflexivity.
    + exact Hpath.
  - apply testPath_false. apply prop_insert_eq.
  - intros options' Hu.
    rewrite (testPath_instance_prefix self path options'); [| |exact Hu].
    + unfold self, constructor. cbn [pathPrefix]. by rewrite (js_or_truthy _ _ Hp).
    + unfold self, constructor. cbn [pathPrefix]. by rewrite (js_or_truthy _ _ Hp).
Qed.

(** The instance with prefix [/api] and [test('GET', '/test', undefined,
    {pathPrefix: ''})]. *)
Lemma test_empty_pathPrefix_disables_prefix_witness :
  (exists t,
      test http_verbs api (JStr "GET") "/test" JUndefined
        (Some {[ "pathPrefix" := JStr EmptyString ]}) [] =
      (Return t, [CallSupertest the_app; CallVerb "get" "/test"; CallExpect])
      /\ url t = "/test")
  /\ testPath api "/test"
       (<[ "pathPrefix" := JBool false ]> {[ "pathPrefix" := JStr EmptyString ]})
     = "/test"
  /\ (forall options' : Obj, prop options' "pathPrefix" = JUndefined ->
      testPath api "/test" options' = "/api/test").
Proof.
  assert (Hin : "get" ∈ http_verbs) by (unfold http_verbs; set_solver).
  exact (test_empty_pathPrefix_disables_prefix http_verbs the_app
           (Some {[ "pathPrefix" := JStr "/api" ]}) (JStr "GET") "/test" JUndefined
           {[ "pathPrefix" := JStr EmptyString ]} [] "get"
           eq_refl eq_refl eq_refl Hin).
Defined.

(** * Further properties of the request builder *)

Lemma lower_ascii_idempotent (c : ascii) :
  lower_ascii (lower_ascii c) = lower_ascii c.
Proof. destruct c as [[] [] [] [] [] [] [] []]; reflexivity. Qed.

Lemma toLowerCase_idempotent (s : string) :
  toLowerCase (toLowerCase s) = toLowerCase s.
Proof.
  induction s as [|c r IH]; [reflexivity|].
  cbn [toLowerCase]. by rewrite lower_ascii_idempotent, IH.
Qed.

Lemma toLowerCase_nonempty (s : string) :
  s ≠ EmptyString -> toLowerCase s ≠ EmptyString.
Proof. destruct s; [done|]. intros _. discriminate. Qed.

(** [test] sees its method only through the verb it resolves. *)
Lemma test_verb_only (fns : gset string) (self : SuperRest) (m m' : JsValue)
    (path : string) (body : JsValue) (options : option Obj) (tr : list Call) :
  call_toLowerCase (js_or m (JStr "GET")) = call_toLowerCase (js_or m' (JStr "GET")) ->
  test fns self m path body options tr = test fns self m' path body options tr.
Proof.
  intros H. unfold test, mbind, M_bind, bind, supertest, lift, log, mret, M_ret, ret.
  by rewrite H.
Qed.

(** A method whose lower-casing is not defined: the call throws what
    the lower-casing throws, after [supertest(app)]. *)
Lemma test_method_error (fns : gset string) (self : SuperRest) (m : JsValue)
    (path : string) (body : JsValue) (options : option Obj) (tr : list Call)
    (e : JsError) :
  call_toLowerCase (js_or m (JStr "GET")) = Throw e ->
  test fns self m path body options tr =
  (Throw e, (tr ++ [CallSupertest (app self)])%list).
Proof.
  intros H. unfold test, mbind, M_bind, bind, supertest, lift, log, mret, M_ret, ret.
  by rewrite H.
Qed.

Lemma call_toLowerCase_throws (v : JsValue) (e : JsError) :
  call_toLowerCase v = Throw e -> e = TypeError /\ isString v = false.
Proof. destruct v; simpl; intros [= <-]; done. Qed.

(** What a returned chain is. *)
Lemma test_returns_inv (fns : gset string) (self : SuperRest) (m : JsValue)
    (path : string) (body : JsValue) (options : option Obj)
    (tr tr' : list Call) (t : Test) :
  test fns self m path body options tr = (Return t, tr') ->
  exists verb,
    call_toLowerCase (js_or m (JStr "GET")) = Return verb
    /\ verb ∈ fns
    /\ t = built_chain self verb path body (default ∅ options)
    /\ tr' = (tr ++ CallSupertest (app self)
                 :: chain_calls self verb path body (default ∅ options))%list.
Proof.
  intros H.
  destruct (call_toLowerCase (js_or m (JStr "GET"))) as [verb|e] eqn:Hv.
  - destruct (decide (verb ∈ fns)) as [Hin|Hout].
    + rewrite (test_supported _ _ _ _ _ _ _ _ Hv Hin) in H.
      injection H as <- <-. by exists verb.
    + rewrite (test_unsupported _ _ _ _ _ _ _ _ Hv Hout) in H. discriminate H.
  - rewrite (test_method_error _ _ _ _ _ _ _ _ Hv) in H. discriminate H.
Qed.

Lemma expect_ext (self : SuperRest) (res : Response) (o o' : Obj) :
  prop o "expectedStatus" = prop o' "expectedStatus" ->
  prop o "expectedContentType" = prop o' "expectedContentType" ->
  expect self res (Some o) = expect self res (Some o').
Proof.
  intros H1 H2. unfold expect, resolve_expectedStatus, resolve_expectedContentType.
  by rewrite H1, H2.
Qed.

(** X1. The method of [test] is case-insensitive: a method and its
    lower-cased form give the same outcome and the same collaborator
    calls, whatever the other arguments. *)
Theorem test_method_case_insensitive (fns : gset string) (self : SuperRest)
    (s : string) (path : string) (body : JsValue) (options : option Obj)
    (tr : list Call) :
  test fns self (JStr s) path body options tr =
  test fns self (JStr (toLowerCase s)) path body options tr.
Proof.
  apply test_verb_only.
  destruct (String.eqb_spec s EmptyString) as [->|Hne]; [reflexivity|].
  rewrite (call_toLowerCase_string s Hne).
  rewrite (call_toLowerCase_string _ (toLowerCase_nonempty s Hne)).
  by rewrite toLowerCase_idempotent.
Qed.

(** X2. Any falsy method ([undefined], [null], [false], 0 or the empty
    string) is the method [GET]: the call behaves as [test('GET', ...)],
    and without a body it is the [read] alias. *)
Theorem test_falsy_method_is_GET (fns : gset string) (self : SuperRest)
    (m : JsValue) (path : string) (body : JsValue) (options : option Obj)
    (tr : list Call) :
  to_boolean m = false ->
  test fns self m path body options tr =
    test fns self (JStr "GET") path body options tr
  /\ test fns self m path JUndefined options tr = read fns self path options tr.
Proof.
  intros H.
  assert (E : forall b, test fns self m path b options tr =
                        test fns self (JStr "GET") path b options tr).
  { intros b. apply test_verb_only. by rewrite (call_toLowerCase_default m H). }
  split; [apply E|]. rewrite E. reflexivity.
Qed.

(** The unit test [helper.test(undefined, '/test')]. *)
Lemma test_falsy_method_is_GET_witness :
  snd (test http_verbs api JUndefined "/test" JUndefined None [])
  = [CallSupertest the_app; CallVerb "get" "/api/test"; CallExpect].
Proof.
  rewrite (proj1 (test_falsy_method_is_GET http_verbs api JUndefined "/test"
                    JUndefined None [] eq_refl)).
  vm_compute. reflexivity.
Defined.

(** X3. A truthy method that is not a string (a number, [true], a
    pattern, a plain object) has no [toLowerCase]: [test] throws a
    [TypeError] when the only collaborator call made is
    [supertest(app)].  And an [Error] thrown by [test], as opposed to a
    [TypeError], is always the unsupported-verb error for the
    lower-cased verb, which the agent does not offer, thrown at that
    same point: no chain was opened. *)
Theorem test_errors_before_chain (fns : gset string) (self : SuperRest)
    (m : JsValue) (path : string) (body : JsValue) (options : option Obj)
    (tr : list Call) :
  (to_boolean m = true -> isString m = false ->
   test fns self m path body options tr =
   (Throw TypeError, (tr ++ [CallSupertest (app self)])%list))
  /\ (forall msg tr',
      test fns self m path body options tr = (Throw (Error msg), tr') ->
      tr' = (tr ++ [CallSupertest (app self)])%list
      /\ exists verb,
           call_toLowerCase (js_or m (JStr "GET")) = Return verb
           /\ (verb ∉ fns)
           /\ msg = message_unsupported verb).
Proof.
  split.
  - intros Ht Hs. apply test_method_error.
    rewrite (js_or_truthy _ _ Ht). by destruct m.
  - intros msg tr' H.
    destruct (call_toLowerCase (js_or m (JStr "GET"))) as [verb|e'] eqn:Hv.
    + destruct (decide (verb ∈ fns)) as [Hin|Hout].
      * rewrite (test_supported _ _ _ _ _ _ _ _ Hv Hin) in H. discriminate H.
      * rewrite (test_unsupported _ _ _ _ _ _ _ _ Hv Hout) in H.
        injection H as <- <-. split; [reflexivity|]. by exists verb.
    + rewrite (test_method_error _ _ _ _ _ _ _ _ Hv) in H.
      destruct (call_toLowerCase_throws _ _ Hv) as [-> _]. discriminate H.
Qed.

(** [test(5, '/x')]: the number has no [toLowerCase]. *)
Lemma test_errors_before_chain_witness :
  test http_verbs api (JNum 5) "/x" JUndefined None [] =
  (Throw TypeError, [CallSupertest the_app]).
Proof.
  exact (proj1 (test_errors_before_chain http_verbs api (JNum 5) "/x" JUndefined
                  None []) eq_refl eq_refl).
Defined.

Lemma expect_some_outcomes (self : SuperRest) (res : Response) (o : Obj) :
  expect self res (Some o) = Return tt
  \/ exists msg, expect self res (Some o) = Throw (Error msg).
Proof.
  unfold expect.
  repeat match goal with
         | |- context [if ?b then _ else _] => destruct b
         end; eauto.
Qed.

(** X4. The path resolution only ever prepends: the requested path is
    the supplied path behind a prefix that is empty, the text of the
    per-call option, or the text of the instance prefix. *)
Theorem testPath_only_prepends (self : SuperRest) (path : string) (options : Obj) :
  exists prefix,
    testPath self path options = prefix +:+ path
    /\ (prefix = EmptyString
        \/ prefix = to_string (prop options "pathPrefix")
        \/ prefix = to_string (pathPrefix self)).
Proof.
  unfold testPath.
  destruct (to_boolean (prop options "pathPrefix")).
  - exists (to_string (prop options "pathPrefix")). auto.
  - match goal with |- context [if ?b then _ else _] => destruct b end.
    + exists (to_string (pathPrefix self)). auto.
    + exists EmptyString. auto.
Qed.

(** X5. On an instance constructed without a truthy [pathPrefix], a
    call whose [pathPrefix] option is falsy (absent included) requests
    the path as supplied. *)
Theorem testPath_unconfigured (a : Application) (ctorOptions : option Obj)
    (path : string) (options : Obj) :
  to_boolean (prop (default ∅ ctorOptions) "pathPrefix") = false ->
  to_boolean (prop options "pathPrefix") = false ->
  testPath (constructor a ctorOptions) path options = path.
Proof.
  intros Hc Ho. unfold testPath, constructor. cbn [pathPrefix].
  by rewrite Ho, (js_or_falsy _ _ Hc).
Qed.

Lemma testPath_unconfigured_witness :
  testPath (constructor the_app None) "/test" ∅ = "/test".
Proof.
  exact (testPath_unconfigured the_app None "/test" ∅ eq_refl eq_refl).
Defined.

(** X6. A falsy body ([undefined], [null], [false], 0 or the empty
    string) is never sent: the call is the one without a body. *)
Theorem test_falsy_body_not_sent (fns : gset string) (self : SuperRest)
    (m : JsValue) (path : string) (body : JsValue) (options : option Obj)
    (tr : list Call) :
  to_boolean body = false ->
  test fns self m path body options tr =
  test fns self m path JUndefined options tr.
Proof.
  intros H. unfold test. rewrite H. reflexivity.
Qed.

(** A body of 0 on a POST. *)
Lemma test_falsy_body_not_sent_witness :
  snd (test http_verbs api (JStr "POST") "/n" (JNum 0) None [])
  = [CallSupertest the_app; CallVerb "post" "/api/n"; CallExpect].
Proof.
  rewrite (test_falsy_body_not_sent http_verbs api (JStr "POST") "/n" (JNum 0)
             None [] eq_refl).
  vm_compute. reflexivity.
Defined.

(** X7. [read] never sends a body, whatever its arguments and whether
    or not the agent offers [get]. *)
Theorem read_never_sends (fns : gset string) (self : SuperRest) (path : string)
    (options : option Obj) :
  forallb (fun c => match c with CallSend _ => false | _ => true end)
          (snd (read fns self path options [])) = true.
Proof.
  unfold read.
  destruct (decide ("get" ∈ fns)) as [Hin|Hout].
  - rewrite (test_supported fns self (JStr "GET") path JUndefined options [] "get"
               eq_refl Hin). reflexivity.
  - rewrite (test_unsupported fns self (JStr "GET") path JUndefined options [] "get"
               eq_refl Hout). reflexivity.
Qed.

(** X8. A chain returned by [test] carries exactly one assertion: it
    resolves with the response itself when [expect] returns for the
    call's options, and rejects with the error of [expect] otherwise;
    that error is never a [TypeError]. *)
Theorem test_chain_settles (fns : gset string) (self : SuperRest) (m : JsValue)
    (path : string) (body : JsValue) (options : option Obj)
    (tr tr' : list Call) (t : Test) :
  test fns self m path body options tr = (Return t, tr') ->
  List.length (asserts t) = 1%nat
  /\ (forall res,
        settle t res =
        match expect self res (Some (default ∅ options)) with
        | Return _ => Return res
        | Throw e => Throw e
        end)
  /\ (forall res,
        settle t res = Return res \/ exists msg, settle t res = Throw (Error msg)).
Proof.
  intros H. destruct (test_returns_inv _ _ _ _ _ _ _ _ _ H) as (verb & _ & _ & -> & _).
  split; [reflexivity|]. split.
  - intros res. apply settle_built_chain.
  - intros res. rewrite settle_built_chain.
    destruct (expect_some_outcomes self res (default ∅ options)) as [->|[msg ->]];
      eauto.
Qed.

(** Scenario a of the specification. *)
Lemma test_chain_settles_witness :
  match fst (test http_verbs (constructor the_app None) (JStr "GET") "/users"
               JUndefined None []) with
  | Return t => settle t res_json = Return res_json
  | Throw _ => False
  end.
Proof.
  destruct (test http_verbs (constructor the_app None) (JStr "GET") "/users"
              JUndefined None []) as [[t|e] tr'] eqn:E.
  - cbn [fst].
    rewrite (proj1 (proj2 (test_chain_settles _ _ _ _ _ _ _ _ _ E)) res_json).
    reflexivity.
  - vm_compute in E. discriminate E.
Defined.

(** * Further properties of the assertion step and the aliases *)

(** X9. When [expect] returns, the response has what was expected: its
    status is the resolved expected status; against a string
    expectation the Content-Type header is present and equal to it;
    against a pattern the header is present, non-empty and matched. *)
Theorem expect_sound (self : SuperRest) (res : Response) (options : Obj) :
  expect self res (Some options) = Return tt ->
  resolve_expectedStatus options = JNum (status res)
  /\ (forall e, resolve_expectedContentType self options = JStr e ->
      header res !! "content-type" = Some e)
  /\ (forall r, resolve_expectedContentType self options = JRegExp r ->
      exists actual, header res !! "content-type" = Some actual
                     /\ actual ≠ EmptyString /\ exec r actual = true).
Proof.
  intros H.
  assert (Hst : resolve_expectedStatus options = JNum (status res)).
  { destruct (strict_equals (JNum (status res)) (resolve_expectedStatus options)) eqn:E.
    - by apply strict_equals_num in E.
    - apply (strict_equals_false_iff _ _ _ (strict_equals_num _ _)) in E.
      rewrite (expect_status_mismatch self res options E) in H. discriminate H. }
  split; [exact Hst|].
  rewrite (expect_status_match self res options Hst) in H.
  split.
  - intros e He. rewrite He in H.
    destruct (header res !! "content-type") as [a|]; [|discriminate H].
    destruct (String.eqb_spec a e) as [Heq|Hneq];
      [by rewrite Heq|discriminate H].
  - intros r Hr. rewrite Hr in H.
    destruct (header res !! "content-type") as [a|]; [|discriminate H].
    exists a. split; [reflexivity|].
    destruct (String.eqb_spec a EmptyString) as [Heq|Hne]; [discriminate H|].
    split; [exact Hne|]. destruct (exec r a); [reflexivity|discriminate H].
Qed.

(** A JSON response against the pattern [/json/]. *)
Lemma expect_sound_witness :
  resolve_expectedStatus ∅ = JNum (status res_json)
  /\ exists actual, header res_json !! "content-type" = Some actual
                    /\ actual ≠ EmptyString /\ exec re_json actual = true.
Proof.
  pose proof (expect_sound api_json_pattern res_json ∅ eq_refl) as (H1 & _ & H3).
  split; [exact H1|]. exact (H3 re_json eq_refl).
Defined.

(** X11. [expect] reads two properties of its options,
    [expectedStatus] and [expectedContentType]: bags that agree on both
    give the same outcome.  In particular the property
    [expectedStatusCode], the name used in the documentation comments,
    has no effect. *)
Theorem expect_reads_two_options (self : SuperRest) (res : Response)
    (o o' : Obj) (v : JsValue) :
  prop o "expectedStatus" = prop o' "expectedStatus" ->
  prop o "expectedContentType" = prop o' "expectedContentType" ->
  expect self res (Some o) = expect self res (Some o')
  /\ expect self res (Some (<[ "expectedStatusCode" := v ]> o)) =
     expect self res (Some o).
Proof.
  intros H1 H2. split; [by apply expect_ext|].
  apply expect_ext; by apply prop_insert_ne.
Qed.

(** A 201 response with [{expectedStatusCode: 201}]: 200 is still expected. *)
Lemma expect_reads_two_options_witness :
  expect api (mkResponse 201 ∅) (Some {[ "expectedStatusCode" := JNum 201 ]}) =
  Throw (Error "Expected HTTP status code 201 to equal 200").
Proof.
  pose proof (expect_reads_two_options api (mkResponse 201 ∅) ∅ ∅ (JNum 201)
                eq_refl eq_refl) as [_ H].
  etransitivity; [exact H|]. vm_compute. reflexivity.
Defined.

(** X12. When the caller gives no [expectedStatus] and the agent
    offers [post], [create] returns a POST chain that rejects every
    response whose status is not 201 with
    [Expected HTTP status code <actual> to equal 201]. *)
Theorem create_chain_expects_201 (fns : gset string) (self : SuperRest)
    (path : string) (body : JsValue) (options : option Obj) (tr : list Call) :
  prop (default ∅ options) "expectedStatus" = JUndefined ->
  "post" ∈ fns ->
  exists t tr',
    create fns self path body options tr = (Return t, tr')
    /\ method t = "post"
    /\ (forall res, status res ≠ 201%Z ->
        settle t res =
        Throw (Error (message_status (to_string (JNum (status res))) "201"))).
Proof.
  intros Hu Hin. unfold create.
  set (o' := defaults ∅ [options; Some {[ "expectedStatus" := JNum 201 ]}]).
  rewrite (test_supported fns self (JStr "POST") path body (Some o') tr "post"
             eq_refl Hin).
  eexists _, _. split; [reflexivity|]. split; [reflexivity|].
  intros res Hne. cbn [default from_option id]. rewrite settle_built_chain.
  assert (Hr : resolve_expectedStatus o' = JNum 201).
  { rewrite resolve_expectedStatus_cases. unfold o'.
    rewrite prop_create_options. cbn. by rewrite Hu. }
  rewrite (expect_status_mismatch self res o'); [by rewrite Hr|].
  rewrite Hr. intros [= E]. by apply Hne.
Qed.

(** Scenario b of the specification, second half. *)
Lemma create_chain_expects_201_witness :
  exists t tr',
    create http_verbs api "/users" (JObject [("name", JStr "Jo")]) None [] =
      (Return t, tr')
    /\ method t = "post"
    /\ (forall res, status res ≠ 201%Z ->
        settle t res =
        Throw (Error (message_status (to_string (JNum (status res))) "201"))).
Proof.
  assert (Hin : "post" ∈ http_verbs) by (unfold http_verbs; set_solver).
  exact (create_chain_expects_201 http_verbs api "/users"
           (JObject [("name", JStr "Jo")]) None [] eq_refl Hin).
Defined.

(** X13. With no [expectedStatus] among the options, a chain returned
    by [test] (and so by [read], [retrieve], [update], [patch],
    [delete] and [destroy]) rejects every response whose status is not
    200 with [Expected HTTP status code <actual> to equal 200]. *)
Theorem test_chain_expects_200 (fns : gset string) (self : SuperRest)
    (m : JsValue) (path : string) (body : JsValue) (options : option Obj)
    (tr tr' : list Call) (t : Test) (res : Response) :
  test fns self m path body options tr = (Return t, tr') ->
  prop (default ∅ options) "expectedStatus" = JUndefined ->
  status res ≠ 200%Z ->
  settle t res =
  Throw (Error (message_status (to_string (JNum (status res))) "200")).
Proof.
  intros H Hu Hne.
  destruct (test_returns_inv _ _ _ _ _ _ _ _ _ H) as (verb & _ & _ & -> & _).
  rewrite settle_built_chain.
  assert (Hr : resolve_expectedStatus (default ∅ options) = JNum 200).
  { rewrite resolve_expectedStatus_cases. by rewrite Hu. }
  rewrite (expect_status_mismatch self res (default ∅ options)); [by rewrite Hr|].
  rewrite Hr. intros [= E]. by apply Hne.
Qed.

(** The unit test of a 201 answer to a plain GET. *)
Lemma test_chain_expects_200_witness :
  match fst (test http_verbs api (JStr "GET") "/test" JUndefined None []) with
  | Return t => settle t res_created_html =
                Throw (Error "Expected HTTP status code 201 to equal 200")
  | Throw _ => False
  end.
Proof.
  destruct (test http_verbs api (JStr "GET") "/test" JUndefined None [])
    as [[t|e] tr'] eqn:E.
  - cbn [fst].
    refine (test_chain_expects_200 _ _ _ _ _ _ _ _ _ res_created_html E eq_refl _).
    vm_compute. intros H. discriminate H.
  - vm_compute in E. discriminate E.
Defined.

(** X14. The constructor keeps two invariants: [updateMethod] is always
    truthy, and [pathPrefix] is truthy or the empty string.  Hence the
    method that [update] hands to [test] is never falsy: the [GET]
    default of [test] never applies to an [update]. *)
Theorem constructor_invariants (a : Application) (ctorOptions : option Obj)
    (options : Obj) :
  let self := constructor a ctorOptions in
  to_boolean (updateMethod self) = true
  /\ (to_boolean (pathPrefix self) = true \/ pathPrefix self = JStr EmptyString)
  /\ to_boolean (js_or (prop options "method") (updateMethod self)) = true
  /\ js_or (js_or (prop options "method") (updateMethod self)) (JStr "GET")
     = js_or (prop options "method") (updateMethod self).
Proof.
  intros self.
  assert (Hu : to_boolean (updateMethod self) = true).
  { unfold self, constructor. cbn [updateMethod]. unfold js_or.
    by destruct (to_boolean (prop (default ∅ ctorOptions) "updateMethod")) eqn:E. }
  assert (Hm : to_boolean (js_or (prop options "method") (updateMethod self)) = true).
  { unfold js_or. by destruct (to_boolean (prop options "method")) eqn:E. }
  split; [exact Hu|]. split; [|split; [exact Hm|by apply js_or_truthy]].
  unfold self, constructor. cbn [pathPrefix]. unfold js_or.
  destruct (to_boolean (prop (default ∅ ctorOptions) "pathPrefix")) eqn:E; auto.
Qed.

(** X15. [update] with the option [method: 'PATCH'] is observably the
    [patch] alias: the same collaborator calls, and either the same
    exception or chains with the same verb, URL and body that settle
    alike on every response. *)
Theorem update_as_patch (fns : gset string) (self : SuperRest) (path : string)
    (body : JsValue) (o : Obj) (tr : list Call) :
  let r1 := update fns self path body (Some (<[ "method" := JStr "PATCH" ]> o)) tr in
  let r2 := patch fns self path body (Some o) tr in
  snd r1 = snd r2
  /\ match fst r1, fst r2 with
     | Return t1, Return t2 =>
         method t1 = method t2 /\ url t1 = url t2 /\ data t1 = data t2
         /\ forall res, settle t1 res = settle t2 res
     | Throw e1, Throw e2 => e1 = e2
     | _, _ => False
     end.
Proof.
  intros r1 r2. subst r1 r2. unfold update, patch.
  cbn [default from_option id]. rewrite prop_insert_eq.
  change (js_or (JStr "PATCH") (updateMethod self)) with (JStr "PATCH").
  set (o' := <[ "method" := JStr "PATCH" ]> o).
  assert (Hp : testPath self path o' = testPath self path o).
  { apply testPath_ext. unfold o'. by apply prop_insert_ne. }
  destruct (decide ("patch" ∈ fns)) as [Hin|Hout].
  - rewrite (test_supported fns self (JStr "PATCH") path body (Some o') tr "patch"
               eq_refl Hin).
    rewrite (test_supported fns self (JStr "PATCH") path body (Some o) tr "patch"
               eq_refl Hin).
    cbn [fst snd default from_option id]. unfold chain_calls. rewrite Hp.
    split; [reflexivity|]. unfold built_chain at 1 2 3 4 5 6.
    cbn [method url data]. rewrite Hp. repeat split.
    intros res. rewrite !settle_built_chain.
    rewrite (expect_ext self res o' o); [reflexivity| |]; unfold o';
      by apply prop_insert_ne.
  - rewrite (test_unsupported fns self (JStr "PATCH") path body (Some o') tr "patch"
               eq_refl Hout).
    rewrite (test_unsupported fns self (JStr "PATCH") path body (Some o) tr "patch"
               eq_refl Hout).
    split; reflexivity.
Qed.
